(** * Serverless function latency chart

    A shallow embedding of
    [x-pack/solutions/observability/plugins/apm/server/routes/metrics/serverless/get_serverless_function_latency_chart.ts]
    and the properties of the chart it returns.

    JavaScript numbers are IEEE 754 binary64 values, which is what Rocq's
    primitive floats are, so [y * 1000] below is the multiplication the
    program performs, rounding and overflow included. *)

From Stdlib Require Import PrimFloat.
From stdpp Require Import base option list strings.

Open Scope string_scope.
Open Scope list_scope.

(** ** JavaScript values *)

(** A value of static type [Maybe<number>], that is
    [number | null | undefined]. *)
Inductive MaybeNumber : Type :=
  | JNumber (n : float)
  | JNull
  | JUndefined.

(** The abstract operation ToNumber on such a value: [null] becomes [0]
    and [undefined] becomes [NaN]. *)
Definition ToNumber (v : MaybeNumber) : float :=
  match v with
  | JNumber n => n
  | JNull => 0%float
  | JUndefined => nan
  end.

(** The operator [a * b]: both operands go through ToNumber. *)
Definition js_mul (a b : MaybeNumber) : MaybeNumber :=
  JNumber (PrimFloat.mul (ToNumber a) (ToNumber b)).

(** The operator [a ?? b]. *)
Definition nullish (a b : MaybeNumber) : MaybeNumber :=
  match a with
  | JNull | JUndefined => b
  | JNumber _ => a
  end.

(** The operator [a || b] on an array that may be [undefined]: every
    array, the empty one too, is truthy. *)
Definition or_array {A} (a : option (list A)) (b : list A) : list A :=
  match a with
  | Some l => l
  | None => b
  end.

(** Modelled from the spec: [isFiniteNumber] of
    [common/utils/is_finite_number], the finite-number predicate: true
    exactly on values that are numbers and finite, so that [null] and
    missing values are not numbers for it. *)
Definition isFiniteNumber (v : MaybeNumber) : bool :=
  match v with
  | JNumber n => is_finite n
  | JNull | JUndefined => false
  end.

(** ** Data model *)

(** A point of a time series, [{ x, y }]. *)
Record Coordinate : Type := mkCoordinate {
  x : float;
  y : MaybeNumber;
}.

(** lodash's [isEmpty] on an array that may be [undefined]: [undefined]
    and the array of length 0 are empty. *)
Definition isEmpty (v : option (list Coordinate)) : bool :=
  match v with
  | None => true
  | Some l => Nat.eqb (length l) 0
  end.

Module Series.
(** Modelled from the spec: an element of [GenericMetricsChart['series']],
    whose declaration is in [../fetch_and_transform_metrics]:
    [{ title, key, type, overallValue, data }].  [data] is [None] when the
    property is [undefined], which the program provides for with
    [data?.map] and [data || []]. *)
Record t : Type := mk {
  title : string;
  key : string;
  type : string;
  overallValue : MaybeNumber;
  data : option (list Coordinate);
}.
End Series.

Module Chart.
(** Modelled from the spec: [GenericMetricsChart], declared in
    [../fetch_and_transform_metrics]: the descriptor fields title, key,
    type, y-axis unit and description, and the list of series. *)
Record t : Type := mk {
  title : string;
  key : string;
  type : string;
  yUnit : string;
  description : option string;
  series : list Series.t;
}.
End Chart.

(** What [getLatencyTimeseries] of [../../transactions/get_latency_charts]
    resolves to, as far as this file reads it. *)
Record LatencyTimeseries : Type := mkLatencyTimeseries {
  overallAvgDuration : MaybeNumber;
  latencyTimeseries : list Coordinate;
}.

(** ** Promises *)

(** What an [async] function can fail with: a TypeError raised by the
    language, or whatever a collaborator rejected with. *)
Inductive Reason : Type :=
  | TypeError
  | Failure (message : string).

(** A settled promise. *)
Inductive Settled (A : Type) : Type :=
  | Fulfilled (value : A)
  | Rejected (reason : Reason).
Arguments Fulfilled {A} value.
Arguments Rejected {A} reason.

(** [await p] followed by the rest of an [async] function. *)
Definition await {A B} (p : Settled A) (k : A -> Settled B) : Settled B :=
  match p with
  | Fulfilled a => k a
  | Rejected e => Rejected e
  end.

Notation "'let!' a ':=' p 'in' k" := (await p (fun a => k))
  (at level 10, a pattern, p at level 100, k at level 200).

(** Which element of the array given to [Promise.all] settles first. *)
Inductive Order : Type :=
  | FirstThenSecond
  | SecondThenFirst.

(** [Promise.all([p, q])]: fulfilled with both values when both are
    fulfilled, rejected with the reason of the first promise to reject
    otherwise. *)
Definition Promise_all {A B} (o : Order) (p : Settled A) (q : Settled B)
  : Settled (A * B) :=
  match p, q with
  | Fulfilled a, Fulfilled b => Fulfilled (a, b)
  | Rejected e, Fulfilled _ => Rejected e
  | Fulfilled _, Rejected e => Rejected e
  | Rejected e1, Rejected e2 =>
      match o with
      | FirstThenSecond => Rejected e1
      | SecondThenFirst => Rejected e2
      end
  end.

(** ** The program *)

Section Program.
(** [i18n.translate(id, { defaultMessage })]. *)
Variable translate : string -> string -> string.

(** [getServerlessLatencySeries], from the promise of
    [getLatencyTimeseries] on. *)
Definition getServerlessLatencySeries
    (getLatencyTimeseries : Settled LatencyTimeseries)
  : Settled (list Series.t) :=
  let! transactionLatency := getLatencyTimeseries in
  Fulfilled
    [ Series.mk
        (translate "xpack.apm.agentMetrics.serverless.transactionDuration"
                   "Transaction Duration")
        "transaction_duration"
        "linemark"
        (nullish (overallAvgDuration transactionLatency) (JNumber 0%float))
        (Some (latencyTimeseries transactionLatency)) ].

(** The callback of [billedDurationSeries.data?.map]. *)
Definition toMicroseconds (p : Coordinate) : Coordinate :=
  mkCoordinate
    (x p)
    (if isFiniteNumber (y p) then js_mul (y p) (JNumber 1000%float) else y p).

(** The first [if] of [getServerlessFunctionLatencyChart]: what is pushed
    on [series] for the series destructured from
    [billedDurationMetrics.series]. *)
Definition pushBilledDuration (series : list Series.t)
    (billedDurationMetrics : Chart.t) : list Series.t :=
  match head (Chart.series billedDurationMetrics) with
  | Some billedDurationSeries =>
      let data :=
        fmap (M:=list) toMicroseconds <$> Series.data billedDurationSeries in
      series ++
        [ Series.mk
            (Series.title billedDurationSeries)
            (Series.key billedDurationSeries)
            (Series.type billedDurationSeries)
            (js_mul (Series.overallValue billedDurationSeries)
                    (JNumber 1000%float))
            (Some (or_array data [])) ]
  | None => series
  end.

(** [getServerlessFunctionLatencyChart] after the [await]: the two
    results are merged into one chart.  Reading [.data] of
    [serverlessDurationSeries[0]] raises a TypeError when the array has
    no element. *)
Definition mergeLatencyChart (billedDurationMetrics : Chart.t)
    (serverlessDurationSeries : list Series.t) : Settled Chart.t :=
  let series := [] in
  let series := pushBilledDuration series billedDurationMetrics in
  match serverlessDurationSeries !! 0%nat with
  | None => Rejected TypeError
  | Some first =>
      let series :=
        if negb (isEmpty (Series.data first))
        then series ++ serverlessDurationSeries
        else series in
      Fulfilled
        (Chart.mk
           (Chart.title billedDurationMetrics)
           (Chart.key billedDurationMetrics)
           (Chart.type billedDurationMetrics)
           (Chart.yUnit billedDurationMetrics)
           (Chart.description billedDurationMetrics)
           series)
  end.

(** [getServerlessFunctionLatencyChart], from the promises of
    [fetchAndTransformMetrics] and [getLatencyTimeseries] on; [o] is the
    order in which the two elements of the [Promise.all] settle. *)
Definition getServerlessFunctionLatencyChart (o : Order)
    (fetchAndTransformMetrics : Settled Chart.t)
    (getLatencyTimeseries : Settled LatencyTimeseries)
  : Settled Chart.t :=
  let! (billedDurationMetrics, serverlessDurationSeries) :=
    Promise_all o fetchAndTransformMetrics
      (getServerlessLatencySeries getLatencyTimeseries) in
  mergeLatencyChart billedDurationMetrics serverlessDurationSeries.
End Program.

(** ** Inputs of the scenarios *)

Definition defaultMessage (id message : string) : string := message.

Definition billedSeriesA : Series.t :=
  Series.mk "Billed Duration" "billedDurationAvg" "linemark"
    (JNumber 2%float)
    (Some [ mkCoordinate 1000%float (JNumber 2%float) ]).

Definition billedA : Chart.t :=
  Chart.mk "Lambda Duration" "avg_duration" "linemark" "time" None
    [ billedSeriesA ].

Definition latencyA : LatencyTimeseries :=
  mkLatencyTimeseries (JNumber 500%float)
    [ mkCoordinate 1000%float (JNumber 500%float) ].

(** Scenario C: the billed-duration fetch yields no series. *)
Definition billedC : Chart.t :=
  Chart.mk "Lambda Duration" "avg_duration" "linemark" "time" None [].

(** Scenario D: points without a value, and one that is not finite. *)
Definition billedSeriesD : Series.t :=
  Series.mk "Billed Duration" "billedDurationAvg" "linemark"
    (JNumber 2%float)
    (Some [ mkCoordinate 1000%float JNull;
            mkCoordinate 2000%float (JNumber 3%float);
            mkCoordinate 3000%float JUndefined;
            mkCoordinate 4000%float (JNumber infinity) ]).

Definition billedD : Chart.t :=
  Chart.mk "Lambda Duration" "avg_duration" "linemark" "time" None
    [ billedSeriesD ].

(** A billed-duration series without its [data] property. *)
Definition billedSeriesU : Series.t :=
  Series.mk "Billed Duration" "billedDurationAvg" "linemark"
    (JNumber 2%float) None.

Definition billedU : Chart.t :=
  Chart.mk "Lambda Duration" "avg_duration" "linemark" "time" None
    [ billedSeriesU ].

(** Buckets that all lack a value. *)
Definition latencyNulls : LatencyTimeseries :=
  mkLatencyTimeseries JNull
    [ mkCoordinate 1000%float JNull; mkCoordinate 2000%float JNull ].

Definition latencyEmpty : LatencyTimeseries :=
  mkLatencyTimeseries JNull [].

(** A billed-duration series whose [overallValue] is [null]. *)
Definition billedSeriesN : Series.t :=
  Series.mk "Billed Duration" "billedDurationAvg" "linemark" JNull
    (Some [ mkCoordinate 1000%float (JNumber 2%float) ]).

Definition billedN : Chart.t :=
  Chart.mk "Lambda Duration" "avg_duration" "linemark" "time" None
    [ billedSeriesN ].

(** A billed-duration series none of whose points has a finite value. *)
Definition billedSeriesV : Series.t :=
  Series.mk "Billed Duration" "billedDurationAvg" "linemark"
    (JNumber 2%float)
    (Some [ mkCoordinate 1000%float JNull;
            mkCoordinate 2000%float (JNumber nan);
            mkCoordinate 3000%float JUndefined ]).

Definition billedV : Chart.t :=
  Chart.mk "Lambda Duration" "avg_duration" "linemark" "time" None
    [ billedSeriesV ].

(** Two series for the merge: the first with a point, the second with
    none; and the same two the other way round. *)
Definition seriesWithPoint : Series.t :=
  Series.mk "Transaction Duration" "transaction_duration" "linemark"
    (JNumber 500%float) (Some [ mkCoordinate 1000%float (JNumber 500%float) ]).

Definition seriesWithoutPoint : Series.t :=
  Series.mk "Transaction Duration" "transaction_duration" "linemark"
    (JNumber 0%float) (Some []).

(** ** Properties *)

Example scenario_A :
  getServerlessFunctionLatencyChart defaultMessage FirstThenSecond
    (Fulfilled billedA) (Fulfilled latencyA)
  = Fulfilled
      (Chart.mk "Lambda Duration" "avg_duration" "linemark" "time" None
         [ Series.mk "Billed Duration" "billedDurationAvg" "linemark"
             (JNumber 2000%float)
             (Some [ mkCoordinate 1000%float (JNumber 2000%float) ]);
           Series.mk "Transaction Duration" "transaction_duration" "linemark"
             (JNumber 500%float)
             (Some [ mkCoordinate 1000%float (JNumber 500%float) ]) ]).
Proof. reflexivity. Qed.

Example scenario_B :
  getServerlessFunctionLatencyChart defaultMessage FirstThenSecond
    (Fulfilled billedA) (Fulfilled latencyEmpty)
  = Fulfilled
      (Chart.mk "Lambda Duration" "avg_duration" "linemark" "time" None
         [ Series.mk "Billed Duration" "billedDurationAvg" "linemark"
             (JNumber 2000%float)
             (Some [ mkCoordinate 1000%float (JNumber 2000%float) ]) ]).
Proof. reflexivity. Qed.

Example scenario_D :
  pushBilledDuration [] billedD
  = [ Series.mk "Billed Duration" "billedDurationAvg" "linemark"
        (JNumber 2000%float)
        (Some [ mkCoordinate 1000%float JNull;
                mkCoordinate 2000%float (JNumber 3000%float);
                mkCoordinate 3000%float JUndefined;
                mkCoordinate 4000%float (JNumber infinity) ]) ].
Proof. reflexivity. Qed.

(** Without the guard the multiplication would turn [null] into [0] and
    [undefined] into [NaN]. *)
Example js_mul_coerces :
  js_mul JNull (JNumber 1000%float) = JNumber 0%float
  /\ js_mul JUndefined (JNumber 1000%float) = JNumber nan.
Proof. split; reflexivity. Qed.

Section Properties.
Variable translate : string -> string -> string.

(** *** The adapter *)

Lemma getServerlessLatencySeries_fulfilled (r : LatencyTimeseries) :
  exists t,
    getServerlessLatencySeries translate (Fulfilled r) = Fulfilled [t]
    /\ Series.key t = "transaction_duration"
    /\ Series.overallValue t = nullish (overallAvgDuration r) (JNumber 0%float)
    /\ Series.data t = Some (latencyTimeseries r).
Proof. eexists; repeat split. Qed.

Lemma getServerlessLatencySeries_rejected (e : Reason) :
  getServerlessLatencySeries translate (Rejected e) = Rejected e.
Proof. reflexivity. Qed.

(** *** The billed-duration series *)

Lemma pushBilledDuration_nil (acc : list Series.t) (m : Chart.t) :
  Chart.series m = [] -> pushBilledDuration acc m = acc.
Proof. unfold pushBilledDuration; intros ->; reflexivity. Qed.

Lemma pushBilledDuration_cons (acc : list Series.t) (m : Chart.t)
    (b : Series.t) (rest : list Series.t) :
  Chart.series m = b :: rest ->
  pushBilledDuration acc m =
    acc ++ [ Series.mk (Series.title b) (Series.key b) (Series.type b)
               (js_mul (Series.overallValue b) (JNumber 1000%float))
               (Some (or_array (fmap (M:=list) toMicroseconds <$> Series.data b)
                               [])) ].
Proof. unfold pushBilledDuration; intros ->; reflexivity. Qed.

Lemma pushBilledDuration_length (m : Chart.t) :
  length (pushBilledDuration [] m) <= 1.
Proof.
  unfold pushBilledDuration.
  destruct (head (Chart.series m)); simpl; lia.
Qed.

(** *** The merge *)

Lemma mergeLatencyChart_first (m : Chart.t) (t : Series.t)
    (ts : list Series.t) :
  mergeLatencyChart m (t :: ts) =
    Fulfilled
      (Chart.mk (Chart.title m) (Chart.key m) (Chart.type m)
         (Chart.yUnit m) (Chart.description m)
         (pushBilledDuration [] m
            ++ (if isEmpty (Series.data t) then [] else t :: ts))).
Proof.
  unfold mergeLatencyChart; simpl.
  destruct (isEmpty (Series.data t)); simpl; [rewrite app_nil_r|]; reflexivity.
Qed.

Lemma mergeLatencyChart_no_element (m : Chart.t) :
  mergeLatencyChart m [] = Rejected TypeError.
Proof. reflexivity. Qed.

(** With both fetches fulfilled, the chart is the merge of the billed
    metrics with the single transaction-duration series. *)
Lemma chart_of_fulfilled (o : Order) (m : Chart.t) (r : LatencyTimeseries) :
  exists t,
    getServerlessLatencySeries translate (Fulfilled r) = Fulfilled [t]
    /\ Series.data t = Some (latencyTimeseries r)
    /\ getServerlessFunctionLatencyChart translate o
         (Fulfilled m) (Fulfilled r) =
       Fulfilled
         (Chart.mk (Chart.title m) (Chart.key m) (Chart.type m)
            (Chart.yUnit m) (Chart.description m)
            (pushBilledDuration [] m
               ++ (if Nat.eqb (length (latencyTimeseries r)) 0
                   then [] else [t]))).
Proof.
  destruct (getServerlessLatencySeries_fulfilled r) as (t & Ht & _ & _ & Hd).
  exists t; split; [exact Ht|split; [exact Hd|]].
  unfold getServerlessFunctionLatencyChart.
  rewrite Ht; simpl.
  rewrite mergeLatencyChart_first, Hd; reflexivity.
Qed.

(** *** The points of the billed-duration series *)

Lemma toMicroseconds_x (p : Coordinate) : x (toMicroseconds p) = x p.
Proof. reflexivity. Qed.

Lemma toMicroseconds_y (p : Coordinate) :
  match y p with
  | JNumber v =>
      y (toMicroseconds p)
      = JNumber (if is_finite v then (v * 1000)%float else v)
  | JNull => y (toMicroseconds p) = JNull
  | JUndefined => y (toMicroseconds p) = JUndefined
  end.
Proof.
  unfold toMicroseconds; destruct (y p) as [v| |]; simpl; try reflexivity.
  destruct (is_finite v); reflexivity.
Qed.

(** C1: with both fetches fulfilled, the first series of the chart is the
    billed-duration one, its data has as many points as the fetched data,
    and the point at each index keeps its [x]; its [y] is [y * 1000] when
    [y] is a finite number, the same number when it is not finite, [null]
    when it is [null] and [undefined] when it is [undefined]. *)
Theorem billed_points_to_microseconds (o : Order) (m : Chart.t)
    (b : Series.t) (rest : list Series.t) (d : list Coordinate)
    (r : LatencyTimeseries) :
  Chart.series m = b :: rest ->
  Series.data b = Some d ->
  exists out b' d',
    getServerlessFunctionLatencyChart translate o (Fulfilled m) (Fulfilled r)
      = Fulfilled out
    /\ head (Chart.series out) = Some b'
    /\ Series.data b' = Some d'
    /\ length d' = length d
    /\ forall (i : nat) (p : Coordinate),
         d !! i = Some p ->
         exists q,
           d' !! i = Some q
           /\ x q = x p
           /\ match y p with
              | JNumber v =>
                  y q = JNumber (if is_finite v then (v * 1000)%float else v)
              | JNull => y q = JNull
              | JUndefined => y q = JUndefined
              end.
Proof.
  intros Hm Hd.
  destruct (chart_of_fulfilled o m r) as (t & _ & _ & ->).
  rewrite (pushBilledDuration_cons [] m b rest Hm), Hd; simpl.
  do 3 eexists; repeat split.
  - apply length_fmap.
  - intros i p Hp. exists (toMicroseconds p).
    split; [rewrite list_lookup_fmap, Hp; reflexivity|].
    split; [apply toMicroseconds_x|apply toMicroseconds_y].
Qed.

(** C2: with both fetches fulfilled and a billed-duration series [b]
    fetched, the first series of the chart has [b.overallValue * 1000] as
    its [overallValue], whatever [b.overallValue] is: for a number [v],
    finite or not, it is the number [v * 1000]. *)
Theorem billed_overallValue_scaled (o : Order) (m : Chart.t)
    (b : Series.t) (rest : list Series.t) (r : LatencyTimeseries) :
  Chart.series m = b :: rest ->
  exists out b',
    getServerlessFunctionLatencyChart translate o (Fulfilled m) (Fulfilled r)
      = Fulfilled out
    /\ head (Chart.series out) = Some b'
    /\ Series.overallValue b'
         = js_mul (Series.overallValue b) (JNumber 1000%float)
    /\ forall v : float,
         Series.overallValue b = JNumber v ->
         Series.overallValue b' = JNumber (v * 1000)%float.
Proof.
  intros Hm.
  destruct (chart_of_fulfilled o m r) as (t & _ & _ & ->).
  rewrite (pushBilledDuration_cons [] m b rest Hm); simpl.
  do 2 eexists; repeat split.
  intros v ->; reflexivity.
Qed.

(** C3: merged with a transaction-duration series [t] whose data is the
    list [d], the chart's series are the billed-duration part alone when
    [d] has length 0, and the billed-duration part followed by [t] itself
    when [d] has at least one point, whatever the points hold; so it is
    for the series the adapter makes of a fetched latency result. *)
Theorem transaction_series_kept_iff_points (m : Chart.t) :
  (forall (t : Series.t) (d : list Coordinate),
     Series.data t = Some d ->
     exists out,
       mergeLatencyChart m [t] = Fulfilled out
       /\ (length d = 0 -> Chart.series out = pushBilledDuration [] m)
       /\ (1 <= length d ->
           Chart.series out = pushBilledDuration [] m ++ [t]))
  /\ (forall (o : Order) (r : LatencyTimeseries),
       exists out t,
         getServerlessLatencySeries translate (Fulfilled r) = Fulfilled [t]
         /\ getServerlessFunctionLatencyChart translate o
              (Fulfilled m) (Fulfilled r) = Fulfilled out
         /\ (length (latencyTimeseries r) = 0 ->
             Chart.series out = pushBilledDuration [] m)
         /\ (1 <= length (latencyTimeseries r) ->
             Chart.series out = pushBilledDuration [] m ++ [t])).
Proof.
  split.
  - intros t d Hd. rewrite mergeLatencyChart_first, Hd.
    eexists; split; [reflexivity|]; simpl.
    destruct d as [|p d]; simpl; split; intros H; try lia; try reflexivity.
    apply app_nil_r.
  - intros o r.
    destruct (chart_of_fulfilled o m r) as (t & Ht & _ & ->).
    eexists; exists t; split; [exact Ht|split; [reflexivity|]]; simpl.
    destruct (latencyTimeseries r) as [|p d]; simpl; split; intros H;
      try lia; try reflexivity.
    apply app_nil_r.
Qed.

(** C4: with both fetches fulfilled, the chart has at most two series: a
    billed-duration part of at most one series, made from the first
    fetched billed-duration series, followed by a transaction-duration
    part that is empty or the adapter's one series; when there are two
    series, the billed-duration one is the first and the
    transaction-duration one the second. *)
Theorem at_most_two_series_billed_first (o : Order) (m : Chart.t)
    (r : LatencyTimeseries) :
  exists out t bs ts,
    getServerlessFunctionLatencyChart translate o (Fulfilled m) (Fulfilled r)
      = Fulfilled out
    /\ getServerlessLatencySeries translate (Fulfilled r) = Fulfilled [t]
    /\ Chart.series out = bs ++ ts
    /\ length (Chart.series out) <= 2
    /\ (bs = [] \/
        exists b b', head (Chart.series m) = Some b
                     /\ bs = [b']
                     /\ Series.key b' = Series.key b
                     /\ Series.title b' = Series.title b)
    /\ (ts = [] \/ ts = [t])
    /\ (length (Chart.series out) = 2 ->
        exists b', bs = [b'] /\ Chart.series out = [b'; t]).
Proof.
  destruct (chart_of_fulfilled o m r) as (t & Ht & _ & ->).
  eexists; exists t, (pushBilledDuration [] m),
    (if Nat.eqb (length (latencyTimeseries r)) 0 then [] else [t]).
  split; [reflexivity|split; [exact Ht|split; [reflexivity|]]]; simpl.
  pose proof (pushBilledDuration_length m) as Hlen.
  split; [|split; [|split]].
  - rewrite length_app.
    destruct (Nat.eqb _ _); simpl; lia.
  - unfold pushBilledDuration.
    destruct (head (Chart.series m)) as [b|]; [right|left; reflexivity].
    eexists b, _; repeat split.
  - destruct (Nat.eqb _ _); [left|right]; reflexivity.
  - rewrite length_app.
    destruct (pushBilledDuration [] m) as [|b' [|b'' bs]]; simpl in *;
      destruct (Nat.eqb _ _); simpl; intros H; try lia.
    exists b'; split; reflexivity.
Qed.

(** C5: with both fetches fulfilled, the title, key, type, y-axis unit and
    description of the chart are those of the billed-duration metrics, and
    its series are the merged list. *)
Theorem descriptor_of_billed_metrics (o : Order) (m : Chart.t)
    (r : LatencyTimeseries) :
  exists out t,
    getServerlessFunctionLatencyChart translate o (Fulfilled m) (Fulfilled r)
      = Fulfilled out
    /\ getServerlessLatencySeries translate (Fulfilled r) = Fulfilled [t]
    /\ Chart.title out = Chart.title m
    /\ Chart.key out = Chart.key m
    /\ Chart.type out = Chart.type m
    /\ Chart.yUnit out = Chart.yUnit m
    /\ Chart.description out = Chart.description m
    /\ Chart.series out
       = pushBilledDuration [] m
           ++ (if isEmpty (Series.data t) then [] else [t]).
Proof.
  destruct (chart_of_fulfilled o m r) as (t & Ht & Hd & ->).
  eexists; exists t; rewrite Hd; repeat split; exact Ht.
Qed.

(** C6: for a fetched latency result the adapter's series has the overall
    average as its [overallValue] when that is a number and [0] when it is
    [null] or [undefined]; it is [null] or [undefined] in no case. *)
Theorem overallValue_defaults_to_zero (r : LatencyTimeseries) :
  exists t,
    getServerlessLatencySeries translate (Fulfilled r) = Fulfilled [t]
    /\ Series.overallValue t
       = match overallAvgDuration r with
         | JNumber v => JNumber v
         | JNull | JUndefined => JNumber 0%float
         end
    /\ Series.overallValue t <> JNull
    /\ Series.overallValue t <> JUndefined.
Proof.
  destruct (getServerlessLatencySeries_fulfilled r) as (t & Ht & _ & Hv & _).
  exists t; split; [exact Ht|]; rewrite Hv.
  destruct (overallAvgDuration r); simpl; repeat split; discriminate.
Qed.

(** C7: with both fetches fulfilled and no billed-duration series fetched,
    the chart keeps the descriptor fields of the billed-duration metrics;
    its series are empty when the latency result has no point, and the
    adapter's transaction-duration series alone when it has one. *)
Theorem no_billed_series_fetched (o : Order) (m : Chart.t)
    (r : LatencyTimeseries) :
  Chart.series m = [] ->
  exists t,
    getServerlessLatencySeries translate (Fulfilled r) = Fulfilled [t]
    /\ (length (latencyTimeseries r) = 0 ->
        getServerlessFunctionLatencyChart translate o
          (Fulfilled m) (Fulfilled r)
        = Fulfilled (Chart.mk (Chart.title m) (Chart.key m) (Chart.type m)
                       (Chart.yUnit m) (Chart.description m) []))
    /\ (1 <= length (latencyTimeseries r) ->
        getServerlessFunctionLatencyChart translate o
          (Fulfilled m) (Fulfilled r)
        = Fulfilled (Chart.mk (Chart.title m) (Chart.key m) (Chart.type m)
                       (Chart.yUnit m) (Chart.description m) [t])).
Proof.
  intros Hm.
  destruct (chart_of_fulfilled o m r) as (t & Ht & _ & ->).
  exists t; split; [exact Ht|].
  rewrite (pushBilledDuration_nil [] m Hm).
  case_eq (latencyTimeseries r); [intros _|intros p d _]; simpl;
    split; intros H; solve [reflexivity | lia].
Qed.

(** C8: for a fetched latency result the adapter returns a list of
    exactly one series, so that its element 0 exists, the merge is
    fulfilled with a chart for all billed-duration metrics, and so is the
    whole function. *)
Theorem one_transaction_series (r : LatencyTimeseries) :
  exists t,
    getServerlessLatencySeries translate (Fulfilled r) = Fulfilled [t]
    /\ length [t] = 1
    /\ [t] !! 0%nat = Some t
    /\ (forall m : Chart.t,
          exists out, mergeLatencyChart m [t] = Fulfilled out)
    /\ (forall (o : Order) (m : Chart.t),
          exists out,
            getServerlessFunctionLatencyChart translate o
              (Fulfilled m) (Fulfilled r) = Fulfilled out).
Proof.
  destruct (getServerlessLatencySeries_fulfilled r) as (t & Ht & _).
  exists t; split; [exact Ht|repeat split].
  - intros m; rewrite mergeLatencyChart_first; eauto.
  - intros o m.
    destruct (chart_of_fulfilled o m r) as (t' & _ & _ & ->); eauto.
Qed.

(** C9: when the billed-duration fetch or the latency fetch is rejected,
    the function is rejected, with the reason of a fetch that was
    rejected, whichever of the two settles first; it is not fulfilled with
    a chart. *)
Theorem rejected_fetch_rejects_chart (o : Order)
    (fb : Settled Chart.t) (fl : Settled LatencyTimeseries) :
  (exists e, fb = Rejected e) \/ (exists e, fl = Rejected e) ->
  exists e,
    getServerlessFunctionLatencyChart translate o fb fl = Rejected e
    /\ (fb = Rejected e \/ fl = Rejected e)
    /\ forall out,
         getServerlessFunctionLatencyChart translate o fb fl
         <> Fulfilled out.
Proof.
  unfold getServerlessFunctionLatencyChart.
  intros [[e ->]|[e ->]].
  - destruct fl as [r|e']; [|destruct o]; simpl; eauto 6.
  - rewrite getServerlessLatencySeries_rejected.
    destruct fb as [m|e']; [|destruct o]; simpl; eauto 6.
Qed.

(** C10: with both fetches fulfilled and a billed-duration series [b]
    fetched, the first series of the chart is made from [b] and its data
    is a list; the list is empty when [b] has no [data]. *)
Theorem billed_data_is_a_list (o : Order) (m : Chart.t)
    (b : Series.t) (rest : list Series.t) (r : LatencyTimeseries) :
  Chart.series m = b :: rest ->
  exists out b' d',
    getServerlessFunctionLatencyChart translate o (Fulfilled m) (Fulfilled r)
      = Fulfilled out
    /\ head (Chart.series out) = Some b'
    /\ Series.key b' = Series.key b
    /\ Series.data b' = Some d'
    /\ (Series.data b = None -> d' = []).
Proof.
  intros Hm.
  destruct (chart_of_fulfilled o m r) as (t & _ & _ & ->).
  rewrite (pushBilledDuration_cons [] m b rest Hm); simpl.
  do 3 eexists; repeat split.
  intros ->; reflexivity.
Qed.
End Properties.

(** ** The theorems at the inputs of the scenarios *)

Lemma billed_points_to_microseconds_scenario_D :
  Chart.series billedD = [billedSeriesD]
  /\ Series.data billedSeriesD
     = Some [ mkCoordinate 1000%float JNull;
              mkCoordinate 2000%float (JNumber 3%float);
              mkCoordinate 3000%float JUndefined;
              mkCoordinate 4000%float (JNumber infinity) ]
  /\ exists out b' d',
       getServerlessFunctionLatencyChart defaultMessage FirstThenSecond
         (Fulfilled billedD) (Fulfilled latencyA) = Fulfilled out
       /\ head (Chart.series out) = Some b'
       /\ Series.data b' = Some d'
       /\ d' !! 0%nat = Some (mkCoordinate 1000%float JNull)
       /\ d' !! 1%nat = Some (mkCoordinate 2000%float (JNumber 3000%float))
       /\ d' !! 2%nat = Some (mkCoordinate 3000%float JUndefined)
       /\ d' !! 3%nat = Some (mkCoordinate 4000%float (JNumber infinity)).
Proof.
  split; [reflexivity|split; [reflexivity|]].
  destruct (billed_points_to_microseconds defaultMessage FirstThenSecond
              billedD billedSeriesD [] _ latencyA eq_refl eq_refl)
    as (out & b' & d' & Hout & Hhd & Hd' & _ & _).
  exists out, b', d'.
  split; [exact Hout|split; [exact Hhd|split; [exact Hd'|]]].
  injection Hout as <-. injection Hhd as <-. injection Hd' as <-.
  repeat split.
Defined.

Lemma billed_overallValue_scaled_scenario_A :
  Chart.series billedA = [billedSeriesA]
  /\ exists out b',
       getServerlessFunctionLatencyChart defaultMessage FirstThenSecond
         (Fulfilled billedA) (Fulfilled latencyA) = Fulfilled out
       /\ head (Chart.series out) = Some b'
       /\ Series.overallValue b' = JNumber 2000%float.
Proof.
  split; [reflexivity|].
  destruct (billed_overallValue_scaled defaultMessage FirstThenSecond
              billedA billedSeriesA [] latencyA eq_refl)
    as (out & b' & Hout & Hhd & _ & Hv).
  exists out, b'; split; [exact Hout|split; [exact Hhd|]].
  apply (Hv 2%float); reflexivity.
Defined.

Lemma transaction_series_kept_iff_points_nulls :
  1 <= length (latencyTimeseries latencyNulls)
  /\ exists out t,
       getServerlessLatencySeries defaultMessage (Fulfilled latencyNulls)
         = Fulfilled [t]
       /\ getServerlessFunctionLatencyChart defaultMessage FirstThenSecond
            (Fulfilled billedA) (Fulfilled latencyNulls) = Fulfilled out
       /\ Chart.series out = pushBilledDuration [] billedA ++ [t].
Proof.
  split; [simpl; lia|].
  destruct (transaction_series_kept_iff_points defaultMessage billedA)
    as [_ H].
  destruct (H FirstThenSecond latencyNulls) as (out & t & Ht & Hout & _ & Hk).
  exists out, t; split; [exact Ht|split; [exact Hout|]].
  apply Hk; simpl; lia.
Defined.

Lemma no_billed_series_fetched_scenario_C :
  Chart.series billedC = []
  /\ exists t,
       getServerlessLatencySeries defaultMessage (Fulfilled latencyA)
         = Fulfilled [t]
       /\ getServerlessFunctionLatencyChart defaultMessage FirstThenSecond
            (Fulfilled billedC) (Fulfilled latencyA)
          = Fulfilled
              (Chart.mk "Lambda Duration" "avg_duration" "linemark" "time"
                 None [t]).
Proof.
  split; [reflexivity|].
  destruct (no_billed_series_fetched defaultMessage FirstThenSecond
              billedC latencyA eq_refl) as (t & Ht & _ & Hk).
  exists t; split; [exact Ht|].
  apply Hk; simpl; lia.
Defined.

Lemma rejected_fetch_rejects_chart_latency :
  ((exists e, Fulfilled billedA = Rejected e)
   \/ (exists e,
         @Rejected LatencyTimeseries
           (Failure "search_phase_execution_exception")
         = Rejected e))
  /\ exists e,
       getServerlessFunctionLatencyChart defaultMessage FirstThenSecond
         (Fulfilled billedA)
         (Rejected (Failure "search_phase_execution_exception"))
       = Rejected e.
Proof.
  assert (H : (exists e, Fulfilled billedA = Rejected e)
              \/ (exists e,
                    @Rejected LatencyTimeseries
                      (Failure "search_phase_execution_exception")
                    = Rejected e))
    by (right; eexists; reflexivity).
  split; [exact H|].
  destruct (rejected_fetch_rejects_chart defaultMessage FirstThenSecond
              (Fulfilled billedA)
              (Rejected (Failure "search_phase_execution_exception")) H)
    as (e & He & _).
  exists e; exact He.
Defined.

Lemma billed_data_is_a_list_undefined :
  Chart.series billedU = [billedSeriesU]
  /\ Series.data billedSeriesU = None
  /\ exists out b',
       getServerlessFunctionLatencyChart defaultMessage FirstThenSecond
         (Fulfilled billedU) (Fulfilled latencyA) = Fulfilled out
       /\ head (Chart.series out) = Some b'
       /\ Series.data b' = Some [].
Proof.
  split; [reflexivity|split; [reflexivity|]].
  destruct (billed_data_is_a_list defaultMessage FirstThenSecond
              billedU billedSeriesU [] latencyA eq_refl)
    as (out & b' & d' & Hout & Hhd & _ & Hd' & Hnil).
  exists out, b'; split; [exact Hout|split; [exact Hhd|]].
  rewrite Hd', (Hnil eq_refl); reflexivity.
Defined.

(** ** Further properties of the merge and of the whole function *)

Section Further.
Variable translate : string -> string -> string.

(** X1: the merge is rejected, with a TypeError, exactly when the list of
    transaction-duration series has no element, and fulfilled with a chart
    exactly when it has one. *)
Theorem merge_rejected_iff_no_element (m : Chart.t) (ts : list Series.t) :
  (mergeLatencyChart m ts = Rejected TypeError <-> ts = [])
  /\ ((exists out, mergeLatencyChart m ts = Fulfilled out) <-> ts <> []).
Proof.
  destruct ts as [|t ts].
  - rewrite mergeLatencyChart_no_element.
    split; split; try congruence; intros [out H]; discriminate H.
  - rewrite mergeLatencyChart_first.
    split; split; try discriminate; eauto.
Qed.

(** X2: the data of the first transaction-duration series alone decides
    for the whole list: when it has a point, every series of the list is
    appended, in order, whatever the data of the others; when it is
    [undefined] or has no point, none is. *)
Theorem merge_first_series_decides (m : Chart.t) (t : Series.t)
    (rest : list Series.t) :
  exists out,
    mergeLatencyChart m (t :: rest) = Fulfilled out
    /\ ((exists d, Series.data t = Some d /\ 1 <= length d) ->
        Chart.series out = pushBilledDuration [] m ++ t :: rest)
    /\ (Series.data t = None \/ Series.data t = Some [] ->
        Chart.series out = pushBilledDuration [] m).
Proof.
  rewrite mergeLatencyChart_first.
  eexists; split; [reflexivity|]; simpl; split.
  - intros (d & -> & Hd). destruct d; simpl in *; [lia|reflexivity].
  - intros [->| ->]; simpl; apply app_nil_r.
Qed.

(** X3: with both fetches fulfilled, the chart has one series when one or
    more billed-duration series were fetched, plus one when the latency
    result has one or more points; it has no series exactly when no
    billed-duration series was fetched and the latency result has no
    point. *)
Theorem chart_series_count (o : Order) (m : Chart.t)
    (r : LatencyTimeseries) :
  exists out,
    getServerlessFunctionLatencyChart translate o (Fulfilled m) (Fulfilled r)
      = Fulfilled out
    /\ length (Chart.series out)
       = Nat.min 1 (length (Chart.series m))
         + Nat.min 1 (length (latencyTimeseries r))
    /\ (Chart.series out = [] <->
        Chart.series m = [] /\ latencyTimeseries r = []).
Proof.
  destruct (chart_of_fulfilled translate o m r) as (t & _ & _ & ->).
  eexists; split; [reflexivity|]; simpl.
  unfold pushBilledDuration.
  destruct (Chart.series m) as [|b bs], (latencyTimeseries r) as [|p ps];
    simpl; split; try reflexivity; split;
    solve [ reflexivity | discriminate | intros [H1 H2]; discriminate
          | intros; split; reflexivity ].
Qed.

(** X4: of the billed-duration series fetched only the first one counts:
    two fetch results with the same descriptor and the same first series
    give the same chart. *)
Theorem later_billed_series_ignored (o : Order)
    (title key type yUnit : string) (description : option string)
    (b : Series.t) (rest rest' : list Series.t)
    (fl : Settled LatencyTimeseries) :
  getServerlessFunctionLatencyChart translate o
    (Fulfilled (Chart.mk title key type yUnit description (b :: rest))) fl
  = getServerlessFunctionLatencyChart translate o
      (Fulfilled (Chart.mk title key type yUnit description (b :: rest'))) fl.
Proof.
  destruct fl as [r|e]; [|reflexivity].
  destruct (chart_of_fulfilled translate o
              (Chart.mk title key type yUnit description (b :: rest)) r)
    as (t & Ht & _ & ->).
  destruct (chart_of_fulfilled translate o
              (Chart.mk title key type yUnit description (b :: rest')) r)
    as (t' & Ht' & _ & ->).
  rewrite Ht in Ht'; injection Ht' as <-.
  reflexivity.
Qed.

(** X5: the [overallValue] of the billed-duration series is not guarded as
    the points are: a [null] one becomes the number [0] and an [undefined]
    one becomes [NaN] in the chart. *)
Theorem billed_overallValue_missing (o : Order) (m : Chart.t)
    (b : Series.t) (rest : list Series.t) (r : LatencyTimeseries) :
  Chart.series m = b :: rest ->
  exists out b',
    getServerlessFunctionLatencyChart translate o (Fulfilled m) (Fulfilled r)
      = Fulfilled out
    /\ head (Chart.series out) = Some b'
    /\ (Series.overallValue b = JNull ->
        Series.overallValue b' = JNumber 0%float)
    /\ (Series.overallValue b = JUndefined ->
        Series.overallValue b' = JNumber nan).
Proof.
  intros Hm.
  destruct (chart_of_fulfilled translate o m r) as (t & _ & _ & ->).
  rewrite (pushBilledDuration_cons [] m b rest Hm); simpl.
  do 2 eexists; split; [reflexivity|split; [reflexivity|]]; simpl.
  split; intros ->; reflexivity.
Qed.

(** X6: the function raises no error of its own: when it is rejected, the
    reason is that of a fetch that was rejected. *)
Theorem chart_rejection_comes_from_fetch (o : Order)
    (fb : Settled Chart.t) (fl : Settled LatencyTimeseries) (e : Reason) :
  getServerlessFunctionLatencyChart translate o fb fl = Rejected e ->
  fb = Rejected e \/ fl = Rejected e.
Proof.
  destruct fb as [m|e1], fl as [r|e2].
  - destruct (chart_of_fulfilled translate o m r) as (t & _ & _ & ->).
    discriminate.
  - unfold getServerlessFunctionLatencyChart; simpl.
    intros [= ->]; right; reflexivity.
  - unfold getServerlessFunctionLatencyChart; simpl.
    intros [= ->]; left; reflexivity.
  - unfold getServerlessFunctionLatencyChart; destruct o; simpl;
      intros [= ->]; [left|right]; reflexivity.
Qed.

(** X7: unless both fetches are rejected, the result does not depend on
    which of the two settles first. *)
Theorem chart_independent_of_settling_order
    (fb : Settled Chart.t) (fl : Settled LatencyTimeseries) (o o' : Order) :
  (exists m, fb = Fulfilled m) \/ (exists r, fl = Fulfilled r) ->
  getServerlessFunctionLatencyChart translate o fb fl
  = getServerlessFunctionLatencyChart translate o' fb fl.
Proof.
  unfold getServerlessFunctionLatencyChart.
  intros [[m ->]|[r ->]].
  - destruct fl; reflexivity.
  - destruct fb; reflexivity.
Qed.

(** X8: when the latency result has a point, the last series of the chart
    is the transaction-duration one, and its data is the latency
    timeseries as fetched: its points are not converted. *)
Theorem transaction_points_as_fetched (o : Order) (m : Chart.t)
    (r : LatencyTimeseries) :
  latencyTimeseries r <> [] ->
  exists out t,
    getServerlessFunctionLatencyChart translate o (Fulfilled m) (Fulfilled r)
      = Fulfilled out
    /\ last (Chart.series out) = Some t
    /\ Series.key t = "transaction_duration"
    /\ Series.type t = "linemark"
    /\ Series.data t = Some (latencyTimeseries r).
Proof.
  intros Hr.
  destruct (chart_of_fulfilled translate o m r) as (t & Ht & Hd & ->).
  injection Ht as <-.
  destruct (latencyTimeseries r) as [|p ps]; [congruence|].
  do 2 eexists; split; [reflexivity|].
  cbn [Chart.series length Nat.eqb].
  rewrite last_snoc; simpl; repeat split.
Qed.

Lemma toMicroseconds_fixed (p : Coordinate) :
  match y p with
  | JNumber v => is_finite v = false
  | JNull | JUndefined => True
  end ->
  toMicroseconds p = p.
Proof.
  destruct p as [px [v| |]]; unfold toMicroseconds; simpl;
    [intros ->|intros _|intros _]; reflexivity.
Qed.

Lemma toMicroseconds_fixed_all (d : list Coordinate) :
  Forall (fun p => match y p with
                   | JNumber v => is_finite v = false
                   | JNull | JUndefined => True
                   end) d ->
  toMicroseconds <$> d = d.
Proof.
  induction 1 as [|p d Hp _ IH]; [reflexivity|].
  rewrite fmap_cons, IH, (toMicroseconds_fixed p Hp); reflexivity.
Qed.

(** X9: a billed-duration series none of whose points has a finite value
    ([null], [undefined], or a number that is not finite) keeps its data
    as it is. *)
Theorem billed_points_without_value_kept (o : Order) (m : Chart.t)
    (b : Series.t) (rest : list Series.t) (d : list Coordinate)
    (r : LatencyTimeseries) :
  Chart.series m = b :: rest ->
  Series.data b = Some d ->
  Forall (fun p => match y p with
                   | JNumber v => is_finite v = false
                   | JNull | JUndefined => True
                   end) d ->
  exists out b',
    getServerlessFunctionLatencyChart translate o (Fulfilled m) (Fulfilled r)
      = Fulfilled out
    /\ head (Chart.series out) = Some b'
    /\ Series.data b' = Some d.
Proof.
  intros Hm Hd Hall.
  destruct (chart_of_fulfilled translate o m r) as (t & _ & _ & ->).
  rewrite (pushBilledDuration_cons [] m b rest Hm), Hd; simpl.
  do 2 eexists; split; [reflexivity|split; [reflexivity|]]; simpl.
  f_equal; apply toMicroseconds_fixed_all, Hall.
Qed.
End Further.

(** ** The further properties at concrete inputs *)

Lemma merge_first_series_decides_both_ways :
  (exists out,
     mergeLatencyChart billedC [seriesWithPoint; seriesWithoutPoint]
       = Fulfilled out
     /\ Chart.series out = [seriesWithPoint; seriesWithoutPoint])
  /\ (exists out,
        mergeLatencyChart billedC [seriesWithoutPoint; seriesWithPoint]
          = Fulfilled out
        /\ Chart.series out = []).
Proof.
  split.
  - destruct (merge_first_series_decides billedC seriesWithPoint
                [seriesWithoutPoint]) as (out & Hout & Hkeep & _).
    exists out; split; [exact Hout|].
    apply Hkeep; eexists; split; [reflexivity|simpl; lia].
  - destruct (merge_first_series_decides billedC seriesWithoutPoint
                [seriesWithPoint]) as (out & Hout & _ & Hdrop).
    exists out; split; [exact Hout|].
    apply Hdrop; right; reflexivity.
Defined.

Lemma billed_overallValue_missing_null :
  Chart.series billedN = [billedSeriesN]
  /\ Series.overallValue billedSeriesN = JNull
  /\ exists out b',
       getServerlessFunctionLatencyChart defaultMessage FirstThenSecond
         (Fulfilled billedN) (Fulfilled latencyA) = Fulfilled out
       /\ head (Chart.series out) = Some b'
       /\ Series.overallValue b' = JNumber 0%float.
Proof.
  split; [reflexivity|split; [reflexivity|]].
  destruct (billed_overallValue_missing defaultMessage FirstThenSecond
              billedN billedSeriesN [] latencyA eq_refl)
    as (out & b' & Hout & Hhd & Hnull & _).
  exists out, b'; split; [exact Hout|split; [exact Hhd|]].
  apply Hnull; reflexivity.
Defined.

Lemma chart_rejection_comes_from_fetch_billed :
  getServerlessFunctionLatencyChart defaultMessage SecondThenFirst
    (Rejected (Failure "index_not_found_exception")) (Fulfilled latencyA)
  = Rejected (Failure "index_not_found_exception")
  /\ (@Rejected Chart.t (Failure "index_not_found_exception")
      = Rejected (Failure "index_not_found_exception")
      \/ Fulfilled latencyA = Rejected (Failure "index_not_found_exception")).
Proof.
  split; [reflexivity|].
  apply (chart_rejection_comes_from_fetch defaultMessage SecondThenFirst
           (Rejected (Failure "index_not_found_exception"))
           (Fulfilled latencyA)).
  reflexivity.
Defined.

Lemma chart_independent_of_settling_order_one_rejected :
  (exists r, Fulfilled latencyA = Fulfilled r)
  /\ getServerlessFunctionLatencyChart defaultMessage FirstThenSecond
       (Rejected (Failure "index_not_found_exception")) (Fulfilled latencyA)
     = getServerlessFunctionLatencyChart defaultMessage SecondThenFirst
         (Rejected (Failure "index_not_found_exception"))
         (Fulfilled latencyA).
Proof.
  assert (H : exists r, Fulfilled latencyA = Fulfilled r)
    by (eexists; reflexivity).
  split; [exact H|].
  apply chart_independent_of_settling_order; right; exact H.
Defined.

Lemma transaction_points_as_fetched_nulls :
  latencyTimeseries latencyNulls <> []
  /\ exists out t,
       getServerlessFunctionLatencyChart defaultMessage FirstThenSecond
         (Fulfilled billedA) (Fulfilled latencyNulls) = Fulfilled out
       /\ last (Chart.series out) = Some t
       /\ Series.key t = "transaction_duration"
       /\ Series.type t = "linemark"
       /\ Series.data t = Some (latencyTimeseries latencyNulls).
Proof.
  assert (H : latencyTimeseries latencyNulls <> []) by discriminate.
  split; [exact H|].
  exact (transaction_points_as_fetched defaultMessage FirstThenSecond
           billedA latencyNulls H).
Defined.

Lemma billed_points_without_value_kept_nan :
  Chart.series billedV = [billedSeriesV]
  /\ exists out b',
       getServerlessFunctionLatencyChart defaultMessage FirstThenSecond
         (Fulfilled billedV) (Fulfilled latencyA) = Fulfilled out
       /\ head (Chart.series out) = Some b'
       /\ Series.data b'
          = Some [ mkCoordinate 1000%float JNull;
                   mkCoordinate 2000%float (JNumber nan);
                   mkCoordinate 3000%float JUndefined ].
Proof.
  split; [reflexivity|].
  apply (billed_points_without_value_kept defaultMessage FirstThenSecond
           billedV billedSeriesV [] _ latencyA eq_refl eq_refl).
  repeat constructor.
Defined.
